(** * IBC 02-client exported types: Height ordering and the ClientType registry

    Shallow embedding of [x/ibc/02-client/exported]: the [Height] struct with
    its comparison helpers, and the [ClientType] byte tag with its string and
    JSON codecs.  Go's fixed-width integers are carried as [Z] with the
    wrap-around of every conversion and subtraction written out. *)

From Stdlib Require Import ZArith String List Bool Lia Ascii.
From Stdlib Require Import Strings.Byte.
From Stdlib Require Import Decimal DecimalString DecimalPos DecimalN.
Import ListNotations.

Local Open Scope string_scope.
Local Open Scope Z_scope.

(** ** Go machine integers *)

Module GoInt.

Definition two63 : Z := 9223372036854775808.
Definition two64 : Z := 18446744073709551616.

(** Values a [uint64] variable can hold. *)
Definition in_uint64 (z : Z) : Prop := 0 <= z < two64.

(** Values an [int64] variable can hold. *)
Definition in_int64 (z : Z) : Prop := - two63 <= z < two63.

(** Reduction of a mathematical integer to the [uint64] it is stored as. *)
Definition wrap_uint64 (z : Z) : Z := z mod two64.

(** Reduction of a mathematical integer to the [int64] it is stored as
    (two's complement). *)
Definition wrap_int64 (z : Z) : Z := (z + two63) mod two64 - two63.

(** The conversion [int64(u)] of a [uint64]: the bit pattern is kept. *)
Definition int64_of_uint64 (u : Z) : Z := wrap_int64 u.

(** [a - b] on [int64]: silent wrap-around. *)
Definition int64_sub (a b : Z) : Z := wrap_int64 (a - b).

(** [a - b] on [uint64]: silent wrap-around. *)
Definition uint64_sub (a b : Z) : Z := wrap_uint64 (a - b).

End GoInt.

Import GoInt.

(** ** Height *)

(** [type Height struct { EpochNumber uint64; EpochHeight uint64 }] *)
Record Height : Type := mkHeight {
  EpochNumber : Z;
  EpochHeight : Z
}.

(** Both fields are [uint64] values. *)
Definition wf_Height (h : Height) : Prop :=
  in_uint64 (EpochNumber h) /\ in_uint64 (EpochHeight h).

(** The zero value [Height{}]. *)
Definition Height_zero : Height := mkHeight 0 0.

Definition NewHeight (epochNumber epochHeight : Z) : Height :=
  {| EpochNumber := epochNumber; EpochHeight := epochHeight |}.

(** [func (h Height) Compare(other Height) int64] *)
Definition Compare (h other : Height) : Z :=
  let cmp :=
    if negb (EpochNumber h =? EpochNumber other)
    then int64_sub (int64_of_uint64 (EpochNumber h))
                   (int64_of_uint64 (EpochNumber other))
    else int64_sub (int64_of_uint64 (EpochHeight h))
                   (int64_of_uint64 (EpochHeight other)) in
  if cmp <? 0 then -1
  else if cmp >? 0 then 1
  else 0.

(** [func (h Height) LT(other Height) bool] *)
Definition LT (h other : Height) : bool := Compare h other =? -1.

(** [func (h Height) GT(other Height) bool] *)
Definition GT (h other : Height) : bool := Compare h other =? 1.

(** [func (h Height) EQ(other Height) bool] *)
Definition EQ (h other : Height) : bool := Compare h other =? 0.

(** [func (h Height) Decrement() (decremented Height, success bool)] *)
Definition Decrement (h : Height) : Height * bool :=
  if EpochHeight h <=? 1
  then (Height_zero, false)
  else (NewHeight (EpochNumber h) (uint64_sub (EpochHeight h) 1), true).

(** [func (h Height) Valid() bool] *)
Definition Valid (h : Height) : bool := negb (EpochHeight h =? 0).

(** [func (h Height) IsZero() bool] *)
Definition IsZero (h : Height) : bool :=
  (EpochNumber h =? 0) && (EpochHeight h =? 0).

(** The ordering the documentation of [Compare] describes: epoch numbers
    first, epoch heights on a tie, each compared as the unsigned numbers
    they are. *)
Definition lex_compare (a b : Height) : Z :=
  if EpochNumber a <? EpochNumber b then -1
  else if EpochNumber b <? EpochNumber a then 1
  else if EpochHeight a <? EpochHeight b then -1
  else if EpochHeight b <? EpochHeight a then 1
  else 0.

(** Heights whose four fields all fit the non-negative half of [int64]. *)
Definition below_two63 (h : Height) : Prop :=
  0 <= EpochNumber h < two63 /\ 0 <= EpochHeight h < two63.

(** ** ClientType *)

(** [type ClientType byte] *)
Definition ClientType : Type := Z.

(** Values a [byte] variable can hold. *)
Definition in_byte (z : Z) : Prop := 0 <= z < 256.

(** Available client types. *)
Definition SoloMachine : ClientType := 6.
Definition Tendermint : ClientType := 7.
Definition Localhost : ClientType := 9.

(** String representation of the client types. *)
Definition ClientTypeSoloMachine : string := "solomachine".
Definition ClientTypeTendermint : string := "tendermint".
Definition ClientTypeLocalHost : string := "localhost".

(** The client types the const block declares. *)
Definition registered_types : list ClientType :=
  [SoloMachine; Tendermint; Localhost].

(** The canonical strings the const block declares. *)
Definition registered_string (s : string) : bool :=
  String.eqb s ClientTypeSoloMachine
  || String.eqb s ClientTypeTendermint
  || String.eqb s ClientTypeLocalHost.

(** The canonical string the const block pairs with each declared type. *)
Definition canonical_string (ct : ClientType) : option string :=
  if ct =? SoloMachine then Some ClientTypeSoloMachine
  else if ct =? Tendermint then Some ClientTypeTendermint
  else if ct =? Localhost then Some ClientTypeLocalHost
  else None.

(** [func (ct ClientType) String() string] *)
Definition ClientType_String (ct : ClientType) : string :=
  if ct =? Tendermint then ClientTypeTendermint
  else if ct =? Localhost then ClientTypeLocalHost
  else EmptyString.

(** [func ClientTypeFromString(clientType string) ClientType] *)
Definition ClientTypeFromString (clientType : string) : ClientType :=
  if String.eqb clientType ClientTypeTendermint then Tendermint
  else if String.eqb clientType ClientTypeLocalHost then Localhost
  else 0.

(** Go [error] values these functions return; [None] stands for [nil]. *)
Inductive error : Type :=
| JsonError (msg : string)
| ErrInvalidType (msg : string).

(** The two entry points of [encoding/json] the codecs call, at type
    [string].  [json_Unmarshal data s] receives the current content [s] of
    the target variable and returns its content afterwards. *)
Class JsonString : Type := {
  json_Marshal : string -> list byte * option error;
  json_Unmarshal : list byte -> string -> string * option error
}.

Section ClientTypeJSON.

Context {J : JsonString}.

(** [func (ct ClientType) MarshalJSON() ([]byte, error)] *)
Definition MarshalJSON (ct : ClientType) : list byte * option error :=
  json_Marshal (ClientType_String ct).

(** [func (ct *ClientType) UnmarshalJSON(data []byte) error]: the receiver
    cell is passed in and returned next to the error. *)
Definition UnmarshalJSON (ct : ClientType) (data : list byte)
  : ClientType * option error :=
  let s := EmptyString in
  let '(s, err) := json_Unmarshal data s in
  match err with
  | Some e => (ct, Some e)
  | None =>
      let clientType := ClientTypeFromString s in
      if clientType =? 0
      then (ct, Some (ErrInvalidType
                        ("invalid client type '" ++ s ++ "'")%string))
      else (clientType, None)
  end.

(** [data] is JSON that [encoding/json] decodes, without error, to [s]. *)
Definition decodes_to (data : list byte) (s : string) : Prop :=
  json_Unmarshal data EmptyString = (s, None).

End ClientTypeJSON.

(** A small instance of [JsonString] for running the codecs on concrete
    inputs: strings are written between double quotes without escapes, and
    [null] leaves the target untouched. *)
Module PlainJson.

Definition quote : byte := x22.
Definition backslash : byte := x5c.

Fixpoint body (bs : list byte) : option (list byte) :=
  match bs with
  | [] => None
  | b :: rest =>
      if Byte.eqb b quote
      then match rest with [] => Some [] | _ :: _ => None end
      else if Byte.eqb b backslash then None
      else option_map (cons b) (body rest)
  end.

Definition is_null (bs : list byte) : bool :=
  String.eqb (string_of_list_byte bs) "null".

Definition unmarshal (data : list byte) (s : string)
  : string * option error :=
  match data with
  | b :: rest =>
      if Byte.eqb b quote
      then match body rest with
           | Some bs => (string_of_list_byte bs, None)
           | None => (s, Some (JsonError "unexpected end of JSON input"))
           end
      else if is_null data then (s, None)
      else (s, Some (JsonError "cannot unmarshal into Go value of type string"))
  | [] => (s, Some (JsonError "unexpected end of JSON input"))
  end.

Definition marshal (s : string) : list byte * option error :=
  (quote :: list_byte_of_string s ++ [quote], None).

Definition codec : JsonString :=
  {| json_Marshal := marshal; json_Unmarshal := unmarshal |}.

(** The JSON text of a string literal. *)
Definition literal (s : string) : list byte := fst (marshal s).

End PlainJson.

(** ** The client life cycle behind the [ClientState] interface *)

Module ClientCore.

(** Modelled from the spec: the error taxonomy of the client core.  The
    source declares the [ClientState] interface only; none of the types
    that implement it is among the source files. *)
Inductive ClientError : Type :=
  | ClientFrozen
  | InvalidHeader
  | InvalidMisbehaviour
  | ConsensusStateNotFound
  | ProofSpecMismatch
  | ProofVerificationFailed.

(** Modelled from the spec: an operation yields its value or one typed
    failure. *)
Inductive result (A : Type) : Type :=
  | Ok (a : A)
  | Err (e : ClientError).
Arguments Ok {A} a.
Arguments Err {A} e.

(** Modelled from the spec: a consensus snapshot (commitment root,
    timestamp, client type) recorded at one height. *)
Record ConsensusState : Type := {
    cons_client_type : ClientType;
    cons_height : Height;
    cons_root : list byte;
    cons_timestamp : Z
  }.

(** Modelled from the spec: the fact types a proof can be checked for;
    the absence check is the only one without an expected value. *)
Inductive Fact : Type :=
  | ClientStateFact (clientID : string) (expected : list byte)
  | ClientConsensusStateFact (clientID : string) (consensusHeight : Height)
                             (expected : list byte)
  | ConnectionStateFact (connectionID : string) (expected : list byte)
  | ChannelStateFact (portID channelID : string) (expected : list byte)
  | PacketCommitmentFact (portID channelID : string) (sequence : Z)
                         (commitmentBytes : list byte)
  | PacketAcknowledgementFact (portID channelID : string) (sequence : Z)
                              (acknowledgement : list byte)
  | PacketAcknowledgementAbsenceFact (portID channelID : string) (sequence : Z)
  | NextSequenceRecvFact (portID channelID : string) (sequence : Z)
                         (nextSequenceRecv : list byte).

(** Modelled from the spec: membership of an expected value, or absence. *)
Definition expected_value (f : Fact) : option (list byte) :=
  match f with
  | ClientStateFact _ v
  | ClientConsensusStateFact _ _ v
  | ConnectionStateFact _ v
  | ChannelStateFact _ _ v
  | PacketCommitmentFact _ _ _ v
  | PacketAcknowledgementFact _ _ _ v
  | NextSequenceRecvFact _ _ _ v => Some v
  | PacketAcknowledgementAbsenceFact _ _ _ => None
  end.

Section Core.

Context {ProofSpec Header Misbehaviour Store : Type}.

(** Modelled from the spec: the per-client trust state; [frozen_height]
    is zero while the client is active. *)
Record ClientState : Type := {
    chain_id : string;
    client_type : ClientType;
    latest_height : Height;
    frozen_height : Height;
    proof_specs : list ProofSpec
  }.

(** Modelled from the spec: what a client variant plugs in behind the
    contract: its trust rule for headers, its test for conflicting
    evidence, the store lookup, key derivation and the proof system. *)
Record Variant : Type := {
    accept_header :
      ClientState -> Store -> Header -> option (Height * ConsensusState);
    conflicting_evidence : ClientState -> Store -> Misbehaviour -> bool;
    misbehaviour_height : Misbehaviour -> Height;
    consensus_at : Store -> Height -> option ConsensusState;
    specs_match : list ProofSpec -> list byte -> bool;
    fact_key : list byte -> Fact -> list byte;
    verify_membership :
      list byte -> list byte -> list byte -> list byte -> bool;
    verify_non_membership : list byte -> list byte -> list byte -> bool
  }.

Variable V : Variant.

(** Modelled from the spec: [is_frozen], frozen height set. *)
Definition IsFrozen (cs : ClientState) : bool :=
  negb (IsZero (frozen_height cs)).

(** Modelled from the spec: the two fields the operations write. *)
Definition with_latest_height (cs : ClientState) (h : Height)
  : ClientState :=
  {| chain_id := chain_id cs; client_type := client_type cs;
     latest_height := h; frozen_height := frozen_height cs;
     proof_specs := proof_specs cs |}.

Definition with_frozen_height (cs : ClientState) (h : Height)
  : ClientState :=
  {| chain_id := chain_id cs; client_type := client_type cs;
     latest_height := latest_height cs; frozen_height := h;
     proof_specs := proof_specs cs |}.

(** Modelled from the spec: header update; a frozen client rejects
    every header, an active one defers to the variant's trust rule. *)
Definition CheckHeaderAndUpdateState
    (cs : ClientState) (store : Store) (header : Header)
  : result (ClientState * ConsensusState) :=
  if IsFrozen cs then Err ClientFrozen
  else match accept_header V cs store header with
       | Some (h, consState) => Ok (with_latest_height cs h, consState)
       | None => Err InvalidHeader
       end.

(** Modelled from the spec: misbehaviour check; conflicting evidence
    freezes an active client at the misbehaviour height. *)
Definition CheckMisbehaviourAndUpdateState
    (cs : ClientState) (store : Store) (m : Misbehaviour)
  : result ClientState :=
  if IsFrozen cs then Err ClientFrozen
  else if conflicting_evidence V cs store m
       then Ok (with_frozen_height cs (misbehaviour_height V m))
       else Err InvalidMisbehaviour.

(** Modelled from the spec: the generic verification primitive: frozen
    check, proof-spec check, consensus-state lookup, proof evaluation,
    in that order. *)
Definition verify_fact
    (cs : ClientState) (store : Store) (height : Height)
    (prefix proof : list byte) (f : Fact) : result unit :=
  if IsFrozen cs then Err ClientFrozen
  else if negb (specs_match V (proof_specs cs) proof)
       then Err ProofSpecMismatch
  else match consensus_at V store height with
       | None => Err ConsensusStateNotFound
       | Some consState =>
           let root := cons_root consState in
           let key := fact_key V prefix f in
           let ok :=
             match expected_value f with
             | Some v => verify_membership V root proof key v
             | None => verify_non_membership V root proof key
             end in
           if ok then Ok tt else Err ProofVerificationFailed
       end.

(** Modelled from the spec: the eight operations, each the generic
    primitive at one fact type. *)
Definition VerifyClientState cs store height prefix
    (counterpartyClientIdentifier : string) proof (clientState : list byte) :=
  verify_fact cs store height prefix proof
    (ClientStateFact counterpartyClientIdentifier clientState).

Definition VerifyClientConsensusState cs store height
    (counterpartyClientIdentifier : string) (consensusHeight : Height)
    prefix proof (consensusState : list byte) :=
  verify_fact cs store height prefix proof
    (ClientConsensusStateFact counterpartyClientIdentifier
       consensusHeight consensusState).

Definition VerifyConnectionState cs store height prefix proof
    (connectionID : string) (connectionEnd : list byte) :=
  verify_fact cs store height prefix proof
    (ConnectionStateFact connectionID connectionEnd).

Definition VerifyChannelState cs store height prefix proof
    (portID channelID : string) (channel : list byte) :=
  verify_fact cs store height prefix proof
    (ChannelStateFact portID channelID channel).

Definition VerifyPacketCommitment cs store height prefix proof
    (portID channelID : string) (sequence : Z)
    (commitmentBytes : list byte) :=
  verify_fact cs store height prefix proof
    (PacketCommitmentFact portID channelID sequence commitmentBytes).

Definition VerifyPacketAcknowledgement cs store height prefix proof
    (portID channelID : string) (sequence : Z)
    (acknowledgement : list byte) :=
  verify_fact cs store height prefix proof
    (PacketAcknowledgementFact portID channelID sequence acknowledgement).

Definition VerifyPacketAcknowledgementAbsence cs store height prefix proof
    (portID channelID : string) (sequence : Z) :=
  verify_fact cs store height prefix proof
    (PacketAcknowledgementAbsenceFact portID channelID sequence).

Definition VerifyNextSequenceRecv cs store height prefix proof
    (portID channelID : string) (sequence : Z)
    (nextSequenceRecv : list byte) :=
  verify_fact cs store height prefix proof
    (NextSequenceRecvFact portID channelID sequence nextSequenceRecv).

(** Modelled from the spec: the requests a host sends to one client. *)
Inductive Request : Type :=
  | UpdateClient (store : Store) (header : Header)
  | SubmitMisbehaviour (store : Store) (m : Misbehaviour)
  | VerifyProof (store : Store) (height : Height)
                (prefix proof : list byte) (f : Fact).

(** Modelled from the spec: the client state the host keeps after a
    request; a failed request changes nothing, a verification is a
    pure read. *)
Definition handle (cs : ClientState) (r : Request) : ClientState :=
  match r with
  | UpdateClient store header =>
      match CheckHeaderAndUpdateState cs store header with
      | Ok (cs', _) => cs'
      | Err _ => cs
      end
  | SubmitMisbehaviour store m =>
      match CheckMisbehaviourAndUpdateState cs store m with
      | Ok cs' => cs'
      | Err _ => cs
      end
  | VerifyProof _ _ _ _ _ => cs
  end.

(** Modelled from the spec: requests to one client are handled one after
    the other. *)
Definition handle_all (cs : ClientState) (rs : list Request)
  : ClientState :=
  fold_left handle rs cs.

End Core.

(** A variant for running the core on concrete inputs: headers and
    evidence are bare heights, a header is accepted when it is above the
    latest height, evidence always conflicts, proofs are the expected
    value itself. *)
Module Sample.

Definition bytes_eqb (a b : list byte) : bool :=
  String.eqb (string_of_list_byte a) (string_of_list_byte b).

Definition variant
  : @Variant unit Height Height (list (Height * ConsensusState)) :=
  {| accept_header := fun cs _ h =>
       if GT h (latest_height cs)
       then Some (h, {| cons_client_type := client_type cs;
                        cons_height := h;
                        cons_root := [];
                        cons_timestamp := 1 |})
       else None;
     conflicting_evidence := fun _ _ _ => true;
     misbehaviour_height := fun m => m;
     consensus_at := fun store h =>
       option_map snd (find (fun p => EQ (fst p) h) store);
     specs_match := fun _ _ => true;
     fact_key := fun prefix _ => prefix;
     verify_membership := fun _ proof _ v => bytes_eqb proof v;
     verify_non_membership := fun _ proof _ => bytes_eqb proof [] |}.

Definition active : @ClientState unit :=
  {| chain_id := "testchain"; client_type := Tendermint;
     latest_height := mkHeight 0 100; frozen_height := Height_zero;
     proof_specs := [tt] |}.

Definition frozen : @ClientState unit :=
  with_frozen_height active (mkHeight 0 90).

End Sample.

End ClientCore.

(** The field [Compare] actually subtracts on: the epoch numbers when they
    differ, the epoch heights otherwise. *)
Definition compared_difference (a b : Height) : Z :=
  if EpochNumber a =? EpochNumber b
  then EpochHeight a - EpochHeight b
  else EpochNumber a - EpochNumber b.

(** ** Decimal text of unsigned integers *)

Module Strconv.

(** The decimal text [%d] and [strconv.FormatUint(u, 10)] print for an
    unsigned integer: its digits without sign or leading zeros, ["0"] for
    zero. *)
Definition FormatUint (u : Z) : string :=
  NilEmpty.string_of_uint (N.to_uint (Z.to_N u)).

(** [strconv.ParseUint(s, 10, 64)] as its callers here see it: the value
    when [s] is a non-empty run of decimal digits denoting a number below
    [2^64], and [None] for the error returned otherwise (empty input, a
    sign, any other byte, or a value out of range). *)
Definition ParseUint (s : string) : option Z :=
  match s with
  | EmptyString => None
  | String _ _ =>
      match NilEmpty.uint_of_string s with
      | None => None
      | Some d =>
          let n := Z.of_N (N.of_uint d) in
          if n <? two64 then Some n else None
      end
  end.

(** Whether the character [c] occurs in [s]. *)
Fixpoint occurs (c : ascii) (s : string) : bool :=
  match s with
  | EmptyString => false
  | String a rest => Ascii.eqb a c || occurs c rest
  end.

End Strconv.

Import Strconv.

(** [func (h Height) String() string] *)
Definition Height_String (h : Height) : string :=
  ("epoch-" ++ FormatUint (EpochNumber h)
   ++ "_height-" ++ FormatUint (EpochHeight h))%string.

(** ** The consensus-state query command *)

Module Cli.

(** [error] values of the command: a message ([errors.New], [fmt.Errorf]),
    or a message wrapping a cause ([%w]). *)
Inductive error : Type :=
| ErrorString (msg : string)
| WrapError (msg : string) (cause : error).

(** How a run of the command's function ends: it returns an error or [nil],
    or an index expression on [args] is out of range. *)
Inductive outcome : Type :=
| Return (err : option error)
| Panic.

Definition flagEpoch : string := "epoch".
Definition flagLatestHeight : string := "latest-height".

(** [cobra.RangeArgs(min, max)]: the positional-argument check cobra runs
    before the command's function. *)
Definition RangeArgs (min max : nat) (args : list string) : option error :=
  if (length args <? min)%nat || (max <? length args)%nat
  then Some (ErrorString
               ("accepts between " ++ FormatUint (Z.of_nat min)
                ++ " and " ++ FormatUint (Z.of_nat max)
                ++ " arg(s), received "
                ++ FormatUint (Z.of_nat (length args)))%string)
  else None.

Section Command.

Context {Ctx Res : Type}.

(** What the command reads from its surroundings: the client context, the
    flag set of the invocation, the query helper and the printer. *)
Record Env : Type := {
  GetClientContextFromCmd : Ctx;
  ReadQueryCommandFlags : Ctx -> Ctx * option error;
  GetBool : string -> bool * option error;
  GetInt : string -> Z * option error;
  FlagProve : string;
  QueryConsensusState :
    Ctx -> string -> Height -> bool -> bool -> Res * option error;
  PrintOutput : Ctx -> Res -> option error
}.

Variable env : Env.

(** The last statements of the function: run the query and print. *)
Definition query_and_print (clientCtx : Ctx) (clientID : string)
    (clientHeight : Height) (prove queryLatestHeight : bool) : outcome :=
  let '(csRes, err) :=
    QueryConsensusState env clientCtx clientID clientHeight prove
      queryLatestHeight in
  match err with
  | Some e => Return (Some e)
  | None => Return (PrintOutput env clientCtx csRes)
  end.

(** The statements after the height is settled: the epoch flag, the prove
    flag, the height to query. *)
Definition with_height (clientCtx : Ctx) (clientID : string)
    (queryLatestHeight : bool) (height : Z) : outcome :=
  let '(epoch, err) := GetInt env flagEpoch in
  match err with
  | Some e => Return (Some (WrapError "expected integer epoch: " e))
  | None =>
      let prove := fst (GetBool env (FlagProve env)) in
      let clientHeight := NewHeight (wrap_uint64 epoch) height in
      query_and_print clientCtx clientID clientHeight prove queryLatestHeight
  end.

(** The [RunE] function of [GetCmdQueryConsensusState]. *)
Definition RunE (args : list string) : outcome :=
  let clientCtx := GetClientContextFromCmd env in
  let '(clientCtx, err) := ReadQueryCommandFlags env clientCtx in
  match err with
  | Some e => Return (Some e)
  | None =>
      match nth_error args 0 with
      | None => Panic
      | Some clientID =>
          let queryLatestHeight := fst (GetBool env flagLatestHeight) in
          if negb queryLatestHeight then
            if negb (length args =? 2)%nat
            then Return (Some (ErrorString
                   "must include a second 'height' argument when '--latest-height' flag is not provided"))
            else
              match nth_error args 1 with
              | None => Panic
              | Some arg1 =>
                  match ParseUint arg1 with
                  | None => Return (Some (ErrorString
                              ("expected integer height, got: " ++ arg1)%string))
                  | Some height =>
                      with_height clientCtx clientID queryLatestHeight height
                  end
              end
          else with_height clientCtx clientID queryLatestHeight 0
      end
  end.

(** The command as cobra executes it ([Args: cobra.RangeArgs(1, 2)]): the
    argument check, then [RunE]. *)
Definition Execute (args : list string) : outcome :=
  match RangeArgs 1 2 args with
  | Some e => Return (Some e)
  | None => RunE args
  end.

End Command.

(** Surroundings for running the command on concrete inputs: the context
    is the text printed so far, the query answers with the text of the
    height it was asked for, and printing always succeeds. *)
Module Sample.

Definition env (latest : bool) (epoch : Z) : @Env string string :=
  {| GetClientContextFromCmd := EmptyString;
     ReadQueryCommandFlags := fun ctx => (ctx, None);
     GetBool := fun name =>
       if String.eqb name flagLatestHeight then (latest, None)
       else (true, None);
     GetInt := fun _ => (epoch, None);
     FlagProve := "prove";
     QueryConsensusState := fun _ _ h _ _ =>
       if Valid h then (Height_String h, None)
       else (EmptyString, Some (ErrorString "consensus state not found"));
     PrintOutput := fun _ _ => None |}.

End Sample.

End Cli.

(** * Properties *)

(** ** Machine integers *)

Section GoIntFacts.

Lemma wrap_int64_small z : in_int64 z -> wrap_int64 z = z.
Proof.
  unfold in_int64, wrap_int64, two63, two64. intros Hz.
  rewrite Z.mod_small; lia.
Qed.

Lemma wrap_int64_range z : in_int64 (wrap_int64 z).
Proof.
  unfold in_int64, wrap_int64, two63, two64.
  pose proof (Z.mod_pos_bound (z + 9223372036854775808) 18446744073709551616).
  lia.
Qed.

Lemma wrap_uint64_small z : in_uint64 z -> wrap_uint64 z = z.
Proof.
  unfold in_uint64, wrap_uint64. intros Hz. now apply Z.mod_small.
Qed.

Lemma int64_sub_diag a : int64_sub a a = 0.
Proof. unfold int64_sub. now rewrite Z.sub_diag. Qed.

(** Below [2^63] the conversion to [int64] changes nothing. *)
Lemma int64_of_uint64_small u : 0 <= u < two63 -> int64_of_uint64 u = u.
Proof.
  intros Hu. apply wrap_int64_small. unfold in_int64, two63 in *. lia.
Qed.

(** From [2^63] on the conversion yields a negative number. *)
Lemma int64_of_uint64_large u :
    two63 <= u < two64 -> int64_of_uint64 u = u - two64.
Proof.
  unfold int64_of_uint64, wrap_int64, two63, two64. intros Hu.
  replace (u + 9223372036854775808)
    with ((u - 9223372036854775808) + 1 * 18446744073709551616) by lia.
  rewrite Z.mod_add by lia. rewrite Z.mod_small; lia.
Qed.

(** The difference of two converted values below [2^63] does not wrap. *)
Lemma int64_sub_small x y :
    0 <= x < two63 -> 0 <= y < two63 ->
    int64_sub (int64_of_uint64 x) (int64_of_uint64 y) = x - y.
Proof.
  intros Hx Hy. rewrite !int64_of_uint64_small by assumption.
  apply wrap_int64_small. unfold in_int64, two63 in *. lia.
Qed.

(** Converting both operands and subtracting is subtracting and reducing
    once: everything happens modulo [2^64]. *)
Lemma int64_sub_of_uint64 x y :
  int64_sub (int64_of_uint64 x) (int64_of_uint64 y) = wrap_int64 (x - y).
Proof.
  unfold int64_sub, int64_of_uint64, wrap_int64.
  assert (Hpos : two64 <> 0) by (unfold two64; lia).
  pose proof (Z.div_mod (x + two63) two64 Hpos) as Hx.
  pose proof (Z.div_mod (y + two63) two64 Hpos) as Hy.
  set (qx := (x + two63) / two64) in *.
  set (rx := (x + two63) mod two64) in *.
  set (qy := (y + two63) / two64) in *.
  set (ry := (y + two63) mod two64) in *.
  replace (rx - two63 - (ry - two63) + two63)
    with (x - y + two63 + (qy - qx) * two64) by lia.
  now rewrite Z_mod_plus_full.
Qed.

(** A difference of [2^63] or more between two [uint64] values comes out
    negative. *)
Lemma int64_sub_far_apart x y :
  in_uint64 x -> in_uint64 y -> two63 <= x - y ->
  int64_sub (int64_of_uint64 x) (int64_of_uint64 y) = x - y - two64.
Proof.
  intros Hx Hy Hd. rewrite int64_sub_of_uint64.
  unfold wrap_int64, in_uint64, two63, two64 in *.
  replace (x - y + 9223372036854775808)
    with ((x - y - 9223372036854775808) + 1 * 18446744073709551616) by lia.
  rewrite Z.mod_add by lia. rewrite Z.mod_small; lia.
Qed.

End GoIntFacts.

(** ** Height *)

Ltac case_cmp :=
  repeat match goal with
         | |- context [?x =? ?y] => destruct (Z.eqb_spec x y)
         | |- context [?x <? ?y] => destruct (Z.ltb_spec x y)
         | |- context [?x <=? ?y] => destruct (Z.leb_spec x y)
         | |- context [?x >? ?y] =>
             rewrite (Z.gtb_ltb x y); destruct (Z.ltb_spec y x)
         end.

(** [Compare] only ever returns -1, 0 or 1. *)
Lemma Compare_range a b :
  Compare a b = -1 \/ Compare a b = 0 \/ Compare a b = 1.
Proof.
  unfold Compare.
  set (cmp := if negb _ then _ else _). clearbody cmp.
  case_cmp; auto.
Qed.

Lemma Compare_refl h : Compare h h = 0.
Proof.
  unfold Compare. rewrite Z.eqb_refl. cbn [negb].
  now rewrite int64_sub_diag.
Qed.

(** As long as no field reaches [2^63] the subtraction does not wrap and
    [Compare] is the lexicographic order. *)
Lemma Compare_lex_below_two63 a b :
  below_two63 a -> below_two63 b -> Compare a b = lex_compare a b.
Proof.
  intros [Han Hah] [Hbn Hbh]. unfold Compare, lex_compare.
  destruct (Z.eqb_spec (EpochNumber a) (EpochNumber b)) as [E | NE]; cbn [negb].
  - rewrite (int64_sub_small _ _ Hah Hbh). case_cmp; lia.
  - rewrite (int64_sub_small _ _ Han Hbn). case_cmp; lia.
Qed.

(** Whenever the epoch number of [a] exceeds that of [b] by [2^63] or more,
    [Compare a b] answers -1 although [a] is the higher height. *)
Lemma Compare_far_apart a b :
  wf_Height a -> wf_Height b ->
  two63 <= EpochNumber a - EpochNumber b ->
  Compare a b = -1 /\ lex_compare a b = 1.
Proof.
  intros [Han _] [Hbn _] Hd. unfold Compare, lex_compare.
  assert (Hpos : 0 < two63) by (unfold two63; lia).
  destruct (Z.eqb_spec (EpochNumber a) (EpochNumber b)) as [E | NE];
    [lia |]; cbn [negb].
  rewrite (int64_sub_far_apart _ _ Han Hbn Hd).
  unfold in_uint64 in *. split; case_cmp; lia.
Qed.

Lemma lex_compare_antisym a b : lex_compare a b = - lex_compare b a.
Proof. unfold lex_compare. case_cmp; lia. Qed.

Lemma lex_compare_trans a b c :
  lex_compare a b <= 0 -> lex_compare b c <= 0 -> lex_compare a c <= 0.
Proof. unfold lex_compare. case_cmp; lia. Qed.

(** C1 (defect): [Compare] is not the lexicographic order on all of
    [uint64].  With epoch numbers [2^63] and [0] the first height has the
    larger epoch number, yet the signed subtraction wraps and [Compare]
    answers -1; the same happens on the epoch heights when the epoch numbers
    tie. *)
Theorem Compare_wraps_from_two63 :
  wf_Height (mkHeight two63 1) /\ wf_Height (mkHeight 0 1)
  /\ EpochNumber (mkHeight two63 1) > EpochNumber (mkHeight 0 1)
  /\ Compare (mkHeight two63 1) (mkHeight 0 1) = -1
  /\ lex_compare (mkHeight two63 1) (mkHeight 0 1) = 1
  /\ Compare (mkHeight 3 two63) (mkHeight 3 0) = -1
  /\ lex_compare (mkHeight 3 two63) (mkHeight 3 0) = 1.
Proof.
  unfold wf_Height, in_uint64, two63, two64; cbn [EpochNumber EpochHeight].
  repeat split; try lia; reflexivity.
Qed.

(** C2 (defect): [Compare] is reflexive, but on all of [uint64] it is neither
    antisymmetric nor transitive: heights whose epoch numbers are [2^63]
    apart are each reported below the other, and three heights with epoch
    numbers [0], [2^62] and [2^63 + 1] are ordered in a cycle. *)
Theorem Compare_order_laws_break :
  (forall h, Compare h h = 0)
  /\ Compare (mkHeight two63 1) (mkHeight 0 1) = -1
  /\ Compare (mkHeight 0 1) (mkHeight two63 1) = -1
  /\ Compare (mkHeight 0 1) (mkHeight 4611686018427387904 1) <= 0
  /\ Compare (mkHeight 4611686018427387904 1) (mkHeight (two63 + 1) 1) <= 0
  /\ Compare (mkHeight 0 1) (mkHeight (two63 + 1) 1) = 1
  /\ wf_Height (mkHeight 4611686018427387904 1)
  /\ wf_Height (mkHeight (two63 + 1) 1).
Proof.
  split; [exact Compare_refl |].
  unfold wf_Height, in_uint64, two63, two64; cbn [EpochNumber EpochHeight].
  repeat split; try lia; try reflexivity; vm_compute; discriminate.
Qed.

(** C6: for a height [h] with [EpochHeight h > 1], [Decrement] succeeds with
    the epoch number unchanged and the epoch height one less, and the result
    is valid; for every other height it reports failure.  In particular
    [Height{1,5}] decrements to [Height{1,4}] and [Height{1,1}] fails. *)
Theorem Decrement_spec (h : Height) :
  wf_Height h ->
  (1 < EpochHeight h ->
     Decrement h = (mkHeight (EpochNumber h) (EpochHeight h - 1), true)
     /\ Valid (fst (Decrement h)) = true
     /\ wf_Height (fst (Decrement h)))
  /\ (EpochHeight h <= 1 -> snd (Decrement h) = false)
  /\ Decrement (mkHeight 1 5) = (mkHeight 1 4, true)
  /\ snd (Decrement (mkHeight 1 1)) = false.
Proof.
  intros [Hn Hh].
  assert (Hsub : 1 < EpochHeight h ->
                 uint64_sub (EpochHeight h) 1 = EpochHeight h - 1).
  { intros Hgt. apply wrap_uint64_small. unfold in_uint64 in *. lia. }
  split; [| split; [| split; reflexivity]].
  - intros Hgt. unfold Decrement.
    destruct (Z.leb_spec (EpochHeight h) 1) as [Hle | _]; [lia |].
    unfold NewHeight. rewrite (Hsub Hgt). cbn [fst].
    split; [reflexivity | split].
    + unfold Valid; cbn [EpochHeight].
      destruct (Z.eqb_spec (EpochHeight h - 1) 0); [lia | reflexivity].
    + split; cbn [EpochNumber EpochHeight]; [exact Hn |].
      unfold in_uint64 in *. lia.
  - intros Hle. unfold Decrement.
    destruct (Z.leb_spec (EpochHeight h) 1); [reflexivity | lia].
Qed.

Lemma Decrement_spec_witness :
  Decrement (mkHeight 7 5) = (mkHeight 7 4, true)
  /\ snd (Decrement (mkHeight 7 1)) = false.
Proof.
  split.
  - refine (proj1 (proj1 (Decrement_spec (mkHeight 7 5) _) _)).
    + unfold wf_Height, in_uint64, two64; simpl; lia.
    + simpl; lia.
  - refine (proj1 (proj2 (Decrement_spec (mkHeight 7 1) _)) _).
    + unfold wf_Height, in_uint64, two64; simpl; lia.
    + simpl; lia.
Defined.

(** C7: a height is valid exactly when its epoch height is not zero, so
    every height with a positive epoch height is valid whatever its epoch
    number; the zero height is zero and not valid. *)
Theorem Valid_iff_EpochHeight_nonzero (h : Height) :
  (Valid h = true <-> EpochHeight h <> 0)
  /\ (0 < EpochHeight h -> Valid h = true)
  /\ IsZero (mkHeight 0 0) = true
  /\ Valid (mkHeight 0 0) = false.
Proof.
  unfold Valid.
  destruct (Z.eqb_spec (EpochHeight h) 0) as [E | NE]; cbn [negb];
    repeat split; intros; try reflexivity; try lia; try discriminate;
    try assumption.
Qed.

Lemma Valid_iff_EpochHeight_nonzero_witness :
  Valid (mkHeight 0 12) = true /\ Valid (mkHeight 12 0) = false.
Proof.
  split.
  - apply (proj1 (proj2 (Valid_iff_EpochHeight_nonzero (mkHeight 0 12)))).
    simpl; lia.
  - destruct (Valid (mkHeight 12 0)) eqn:E; [| reflexivity].
    apply (proj1 (Valid_iff_EpochHeight_nonzero (mkHeight 12 0))) in E.
    simpl in E; lia.
Defined.

(** C8: for every pair of heights exactly one of [LT], [GT], [EQ] answers
    true, and every height is [EQ] to itself. *)
Theorem LT_GT_EQ_exactly_one (a b : Height) :
  ((LT a b = true /\ GT a b = false /\ EQ a b = false)
   \/ (LT a b = false /\ GT a b = true /\ EQ a b = false)
   \/ (LT a b = false /\ GT a b = false /\ EQ a b = true))
  /\ EQ a a = true.
Proof.
  split.
  - unfold LT, GT, EQ.
    destruct (Compare_range a b) as [E | [E | E]]; rewrite E; cbn; auto.
  - unfold EQ. now rewrite Compare_refl.
Qed.

(** ** ClientType *)

(** [ClientTypeFromString] answers 0 exactly off the two strings its switch
    lists. *)
Lemma ClientTypeFromString_zero_iff (s : string) :
  ClientTypeFromString s = 0
  <-> s <> ClientTypeTendermint /\ s <> ClientTypeLocalHost.
Proof.
  unfold ClientTypeFromString.
  destruct (String.eqb_spec s ClientTypeTendermint) as [E1 | N1].
  - split; [discriminate | intros [H _]; contradiction].
  - destruct (String.eqb_spec s ClientTypeLocalHost) as [E2 | N2].
    + split; [discriminate | intros [_ H]; contradiction].
    + split; auto.
Qed.

Lemma registered_string_false (s : string) :
  registered_string s = false ->
  s <> ClientTypeSoloMachine /\ s <> ClientTypeTendermint
  /\ s <> ClientTypeLocalHost.
Proof.
  unfold registered_string. intros H.
  apply orb_false_elim in H as [H H3]. apply orb_false_elim in H as [H1 H2].
  repeat split; intros ->; discriminate.
Qed.

Lemma ClientTypeFromString_unregistered (s : string) :
  registered_string s = false -> ClientTypeFromString s = 0.
Proof.
  intros H. apply registered_string_false in H as (_ & H2 & H3).
  now apply ClientTypeFromString_zero_iff.
Qed.

(** What [UnmarshalJSON] does on each outcome of the JSON decoder. *)
Lemma UnmarshalJSON_json_error {J : JsonString} ct data s e :
  json_Unmarshal data EmptyString = (s, Some e) ->
  UnmarshalJSON ct data = (ct, Some e).
Proof. unfold UnmarshalJSON. now intros ->. Qed.

Lemma UnmarshalJSON_decoded {J : JsonString} ct data s :
  decodes_to data s ->
  UnmarshalJSON ct data =
    if ClientTypeFromString s =? 0
    then (ct, Some (ErrInvalidType
                      ("invalid client type '" ++ s ++ "'")%string))
    else (ClientTypeFromString s, None).
Proof. unfold decodes_to, UnmarshalJSON. now intros ->. Qed.

(** C3 (defect): the round trip through the canonical string works for
    [Tendermint] and [Localhost] but not for [SoloMachine]: [String] has no
    case for it, so it encodes to the empty string, which decodes to 0; the
    declared string ["solomachine"] decodes to 0 as well. *)
Theorem SoloMachine_round_trip_lost :
  In SoloMachine registered_types
  /\ ClientTypeFromString (ClientType_String SoloMachine) = 0
  /\ ClientTypeFromString (ClientType_String SoloMachine) <> SoloMachine
  /\ ClientTypeFromString ClientTypeSoloMachine = 0
  /\ ClientTypeFromString (ClientType_String Tendermint) = Tendermint
  /\ ClientTypeFromString (ClientType_String Localhost) = Localhost.
Proof.
  repeat split; try reflexivity.
  - left; reflexivity.
  - vm_compute; discriminate.
Qed.

(** C4 (defect): [String] returns ["tendermint"] and ["localhost"] for
    [Tendermint] and [Localhost], but for [SoloMachine] it returns the empty
    string instead of the declared ["solomachine"], and [MarshalJSON]
    therefore marshals the empty string. *)
Theorem SoloMachine_String_empty :
  ClientType_String Tendermint = "tendermint"
  /\ ClientType_String Localhost = "localhost"
  /\ canonical_string SoloMachine = Some "solomachine"
  /\ ClientType_String SoloMachine = EmptyString
  /\ ClientType_String SoloMachine <> "solomachine"
  /\ (forall J : JsonString, MarshalJSON SoloMachine = json_Marshal EmptyString)
  /\ @MarshalJSON PlainJson.codec SoloMachine = ([x22; x22], None).
Proof.
  repeat split; try reflexivity.
  vm_compute; discriminate.
Qed.

(** C5: a string that is none of the declared canonical client-type strings
    is decoded by [ClientTypeFromString] to the sentinel 0, which is none of
    the declared client types, and [UnmarshalJSON] on JSON that decodes to
    such a string returns an error and keeps the receiver as it was. *)
Theorem unregistered_string_rejected {J : JsonString} (s : string) :
  registered_string s = false ->
  ClientTypeFromString s = 0
  /\ ~ In (ClientTypeFromString s) registered_types
  /\ (forall ct data,
         decodes_to data s ->
         UnmarshalJSON ct data =
           (ct, Some (ErrInvalidType
                        ("invalid client type '" ++ s ++ "'")%string))).
Proof.
  intros H. pose proof (ClientTypeFromString_unregistered s H) as H0.
  split; [exact H0 | split].
  - rewrite H0. unfold registered_types, SoloMachine, Tendermint, Localhost.
    cbn [In]. intuition discriminate.
  - intros ct data Hd. rewrite (UnmarshalJSON_decoded ct data s Hd).
    now rewrite H0.
Qed.

Lemma unregistered_string_rejected_witness :
  ClientTypeFromString "ostrich" = 0
  /\ @UnmarshalJSON PlainJson.codec Tendermint (PlainJson.literal "ostrich")
     = (Tendermint, Some (ErrInvalidType "invalid client type 'ostrich'")).
Proof.
  assert (R : registered_string "ostrich" = false) by reflexivity.
  split.
  - exact (proj1 (@unregistered_string_rejected PlainJson.codec "ostrich" R)).
  - apply (proj2 (proj2
             (@unregistered_string_rejected PlainJson.codec "ostrich" R))).
    reflexivity.
Defined.

(** C10: [UnmarshalJSON] is atomic on failure.  Whenever the input does not
    decode to a declared canonical client-type string (the JSON decoder
    fails, or it yields some other string) an error is returned and the
    receiver keeps its value; more generally every error return leaves the
    receiver unchanged, and a [nil] return stores the non-zero type decoded
    from the string. *)
Theorem UnmarshalJSON_atomic {J : JsonString}
    (ct : ClientType) (data : list byte) :
  ((forall s, decodes_to data s -> registered_string s = false) ->
   exists e, UnmarshalJSON ct data = (ct, Some e))
  /\ (snd (UnmarshalJSON ct data) <> None ->
      fst (UnmarshalJSON ct data) = ct)
  /\ (snd (UnmarshalJSON ct data) = None ->
      exists s, decodes_to data s
                /\ fst (UnmarshalJSON ct data) = ClientTypeFromString s
                /\ ClientTypeFromString s <> 0).
Proof.
  destruct (json_Unmarshal data EmptyString) as [s [e |]] eqn:Hj.
  - rewrite (UnmarshalJSON_json_error ct data s e Hj). cbn [fst snd].
    split; [eauto | split; [reflexivity | discriminate]].
  - rewrite (UnmarshalJSON_decoded ct data s Hj).
    destruct (Z.eqb_spec (ClientTypeFromString s) 0) as [E | NE]; cbn [fst snd].
    + split; [eauto | split; [reflexivity | discriminate]].
    + split; [| split].
      * intros Hall. specialize (Hall s Hj).
        apply ClientTypeFromString_unregistered in Hall. contradiction.
      * intros Hne. now contradiction Hne.
      * intros _. exists s. auto.
Qed.

Lemma UnmarshalJSON_atomic_witness :
  (exists e, @UnmarshalJSON PlainJson.codec Localhost [x37] = (Localhost, Some e))
  /\ (exists e, @UnmarshalJSON PlainJson.codec Localhost
                  (PlainJson.literal "ostrich") = (Localhost, Some e))
  /\ fst (@UnmarshalJSON PlainJson.codec Localhost [x37]) = Localhost.
Proof.
  split; [| split].
  - apply (proj1 (@UnmarshalJSON_atomic PlainJson.codec Localhost [x37])).
    intros s Hd. vm_compute in Hd. discriminate.
  - apply (proj1 (@UnmarshalJSON_atomic PlainJson.codec Localhost
                    (PlainJson.literal "ostrich"))).
    intros s Hd. vm_compute in Hd. injection Hd as <-. reflexivity.
  - apply (proj1 (proj2 (@UnmarshalJSON_atomic PlainJson.codec Localhost [x37]))).
    vm_compute. discriminate.
Defined.

(** ** The client life cycle *)

Section Frozen.

Import ClientCore.

Context {ProofSpec Header Misbehaviour Store : Type}.
Variable V : @Variant ProofSpec Header Misbehaviour Store.

Lemma verify_fact_frozen (cs : @ClientState ProofSpec) store height prefix proof f :
    IsFrozen cs = true ->
    verify_fact V cs store height prefix proof f = Err ClientFrozen.
Proof. unfold verify_fact. now intros ->. Qed.

Lemma CheckHeaderAndUpdateState_frozen (cs : @ClientState ProofSpec) store header :
    IsFrozen cs = true ->
    CheckHeaderAndUpdateState V cs store header = Err ClientFrozen.
Proof. unfold CheckHeaderAndUpdateState. now intros ->. Qed.

Lemma CheckMisbehaviourAndUpdateState_frozen (cs : @ClientState ProofSpec) store m :
    IsFrozen cs = true ->
    CheckMisbehaviourAndUpdateState V cs store m = Err ClientFrozen.
Proof. unfold CheckMisbehaviourAndUpdateState. now intros ->. Qed.

(** A header update never touches the frozen height. *)
Lemma CheckHeaderAndUpdateState_frozen_height (cs cs' : @ClientState ProofSpec) store header c :
    CheckHeaderAndUpdateState V cs store header = Ok (cs', c) ->
    frozen_height cs' = frozen_height cs.
Proof.
  unfold CheckHeaderAndUpdateState.
  destruct (IsFrozen cs); [discriminate |].
  destruct (accept_header V cs store header) as [[h c'] |]; [| discriminate].
  intros [= <- _]. reflexivity.
Qed.

(** No request changes the state of a frozen client. *)
Lemma handle_frozen (cs : @ClientState ProofSpec) (r : @Request Header Misbehaviour Store) :
    IsFrozen cs = true -> handle V cs r = cs.
Proof.
  intros Hf. destruct r as [store header | store m | store h p pr f]; cbn.
  - now rewrite CheckHeaderAndUpdateState_frozen.
  - now rewrite CheckMisbehaviourAndUpdateState_frozen.
  - reflexivity.
Qed.

Lemma handle_all_frozen (rs : list (@Request Header Misbehaviour Store)) :
    forall cs : @ClientState ProofSpec, IsFrozen cs = true -> handle_all V cs rs = cs.
Proof.
  unfold handle_all.
  induction rs as [| r rs IH]; intros cs Hf; cbn [fold_left].
  - reflexivity.
  - rewrite (handle_frozen cs r Hf). now apply IH.
Qed.

End Frozen.

(** C9: freezing is terminal.  Against a frozen client the header update
    and each of the eight verification operations fail with [ClientFrozen],
    whatever header, store or proof they are given, and after any sequence
    of requests the client is still frozen. *)
Theorem frozen_is_terminal
    {ProofSpec Header Misbehaviour Store : Type}
    (V : @ClientCore.Variant ProofSpec Header Misbehaviour Store)
    (cs : @ClientCore.ClientState ProofSpec) :
  ClientCore.IsFrozen cs = true ->
  (forall store header,
      ClientCore.CheckHeaderAndUpdateState V cs store header
      = ClientCore.Err ClientCore.ClientFrozen)
  /\ (forall store height prefix id proof clientState,
         ClientCore.VerifyClientState V cs store height prefix id proof
           clientState = ClientCore.Err ClientCore.ClientFrozen)
  /\ (forall store height id consensusHeight prefix proof consensusState,
         ClientCore.VerifyClientConsensusState V cs store height id
           consensusHeight prefix proof consensusState
         = ClientCore.Err ClientCore.ClientFrozen)
  /\ (forall store height prefix proof connectionID connectionEnd,
         ClientCore.VerifyConnectionState V cs store height prefix proof
           connectionID connectionEnd
         = ClientCore.Err ClientCore.ClientFrozen)
  /\ (forall store height prefix proof portID channelID channel,
         ClientCore.VerifyChannelState V cs store height prefix proof
           portID channelID channel
         = ClientCore.Err ClientCore.ClientFrozen)
  /\ (forall store height prefix proof portID channelID sequence commitment,
         ClientCore.VerifyPacketCommitment V cs store height prefix proof
           portID channelID sequence commitment
         = ClientCore.Err ClientCore.ClientFrozen)
  /\ (forall store height prefix proof portID channelID sequence ack,
         ClientCore.VerifyPacketAcknowledgement V cs store height prefix proof
           portID channelID sequence ack
         = ClientCore.Err ClientCore.ClientFrozen)
  /\ (forall store height prefix proof portID channelID sequence,
         ClientCore.VerifyPacketAcknowledgementAbsence V cs store height
           prefix proof portID channelID sequence
         = ClientCore.Err ClientCore.ClientFrozen)
  /\ (forall store height prefix proof portID channelID sequence next,
         ClientCore.VerifyNextSequenceRecv V cs store height prefix proof
           portID channelID sequence next
         = ClientCore.Err ClientCore.ClientFrozen)
  /\ (forall rs, ClientCore.IsFrozen (ClientCore.handle_all V cs rs) = true).
Proof.
  intros Hf.
  split; [intros; now apply CheckHeaderAndUpdateState_frozen |].
  repeat (split; [intros; now apply verify_fact_frozen |]).
  intros rs. now rewrite handle_all_frozen.
Qed.

Lemma frozen_is_terminal_witness :
  ClientCore.IsFrozen ClientCore.Sample.frozen = true
  /\ ClientCore.CheckHeaderAndUpdateState ClientCore.Sample.variant
       ClientCore.Sample.frozen [] (mkHeight 0 101)
     = ClientCore.Err ClientCore.ClientFrozen
  /\ ClientCore.IsFrozen
       (ClientCore.handle_all ClientCore.Sample.variant
          ClientCore.Sample.frozen
          [ClientCore.UpdateClient [] (mkHeight 0 101);
           ClientCore.SubmitMisbehaviour [] (mkHeight 0 0)]) = true.
Proof.
  assert (Hf : ClientCore.IsFrozen ClientCore.Sample.frozen = true)
    by reflexivity.
  pose proof (frozen_is_terminal ClientCore.Sample.variant
                ClientCore.Sample.frozen Hf) as H.
  split; [exact Hf | split].
  - apply (proj1 H).
  - apply (proj2 (proj2 (proj2 (proj2 (proj2 (proj2 (proj2 (proj2 (proj2 H))))))))).
Defined.

(** * Further properties of the package *)

(** ** Where [Compare] can be relied on *)

(** The three ways a difference of two [uint64] values is stored in an
    [int64]. *)
Lemma wrap_int64_cases z :
  - two64 < z < two64 ->
  (in_int64 z /\ wrap_int64 z = z)
  \/ (two63 <= z /\ wrap_int64 z = z - two64)
  \/ (z < - two63 /\ wrap_int64 z = z + two64).
Proof.
  intros Hz. unfold in_int64, wrap_int64, two63, two64 in *.
  destruct (Z_lt_le_dec z (- 9223372036854775808)) as [Hlo | Hlo].
  - right; right. split; [exact Hlo |].
    replace (z + 9223372036854775808)
      with ((z + 27670116110564327424) + (-1) * 18446744073709551616) by lia.
    rewrite Z.mod_add by lia. rewrite Z.mod_small; lia.
  - destruct (Z_lt_le_dec z 9223372036854775808) as [Hhi | Hhi].
    + left. split; [lia |]. rewrite Z.mod_small; lia.
    + right; left. split; [exact Hhi |].
      replace (z + 9223372036854775808)
        with ((z - 9223372036854775808) + 1 * 18446744073709551616) by lia.
      rewrite Z.mod_add by lia. rewrite Z.mod_small; lia.
Qed.

(** The stored difference of two [uint64] values is zero only when they are
    equal. *)
Lemma int64_sub_zero_iff x y :
  in_uint64 x -> in_uint64 y ->
  (int64_sub (int64_of_uint64 x) (int64_of_uint64 y) = 0 <-> x = y).
Proof.
  intros Hx Hy. rewrite int64_sub_of_uint64.
  assert (Hz : - two64 < x - y < two64) by (unfold in_uint64 in *; lia).
  destruct (wrap_int64_cases (x - y) Hz) as [[_ E] | [[Hd E] | [Hd E]]];
    rewrite E; unfold in_uint64, two63, two64 in *; lia.
Qed.

(** [Compare] is the sign of the stored difference of the compared field. *)
Lemma Compare_sign_of_difference a b :
  Compare a b =
    let cmp := wrap_int64 (compared_difference a b) in
    if cmp <? 0 then -1 else if cmp >? 0 then 1 else 0.
Proof.
  unfold Compare, compared_difference.
  destruct (EpochNumber a =? EpochNumber b); cbn [negb];
    now rewrite int64_sub_of_uint64.
Qed.

Lemma lex_compare_sign_of_difference a b :
  lex_compare a b =
    let d := compared_difference a b in
    if d <? 0 then -1 else if d >? 0 then 1 else 0.
Proof.
  unfold lex_compare, compared_difference. cbv zeta.
  destruct (Z.eqb_spec (EpochNumber a) (EpochNumber b)); case_cmp; lia.
Qed.

Lemma compared_difference_range a b :
  wf_Height a -> wf_Height b ->
  - two64 < compared_difference a b < two64.
Proof.
  intros [Han Hah] [Hbn Hbh]. unfold compared_difference.
  destruct (EpochNumber a =? EpochNumber b); unfold in_uint64 in *; lia.
Qed.

(** X1: on heights with [uint64] fields, [Compare] returns the
    lexicographic result exactly when the difference of the compared field
    (the epoch numbers if they differ, else the epoch heights) lies in
    [-2^63, 2^63). *)
Theorem Compare_correct_iff (a b : Height) :
  wf_Height a -> wf_Height b ->
  (Compare a b = lex_compare a b
   <-> - two63 <= compared_difference a b < two63).
Proof.
  intros Ha Hb.
  pose proof (compared_difference_range a b Ha Hb) as Hr.
  rewrite Compare_sign_of_difference, lex_compare_sign_of_difference.
  cbv zeta. set (d := compared_difference a b) in *. clearbody d.
  destruct (wrap_int64_cases d Hr) as [[Hin E] | [[Hd E] | [Hd E]]];
    rewrite E; unfold in_int64, two63, two64 in *;
    split; intros H; try lia; revert H; case_cmp; lia.
Qed.

Lemma Compare_correct_iff_witness :
  Compare (mkHeight 2 7) (mkHeight 2 9) = lex_compare (mkHeight 2 7) (mkHeight 2 9)
  /\ ~ (- two63 <= compared_difference (mkHeight two63 1) (mkHeight 0 1) < two63).
Proof.
  assert (W : forall n h, 0 <= n < two64 -> 0 <= h < two64 ->
                          wf_Height (mkHeight n h)).
  { intros n h Hn Hh. split; assumption. }
  split.
  - apply (proj2 (Compare_correct_iff (mkHeight 2 7) (mkHeight 2 9)
                    (W 2 7 ltac:(unfold two64; lia) ltac:(unfold two64; lia))
                    (W 2 9 ltac:(unfold two64; lia) ltac:(unfold two64; lia)))).
    vm_compute. split; [discriminate | reflexivity].
  - intros H.
    apply (proj2 (Compare_correct_iff (mkHeight two63 1) (mkHeight 0 1)
                    (W two63 1 ltac:(unfold two63, two64; lia)
                       ltac:(unfold two64; lia))
                    (W 0 1 ltac:(unfold two64; lia) ltac:(unfold two64; lia))))
      in H.
    vm_compute in H. discriminate.
Defined.

(** X2: among heights whose fields are all below [2^63], [Compare] is an
    order: it is the lexicographic comparison, swapping the arguments
    negates the result, it is transitive, and [LT a b] agrees with
    [GT b a]. *)
Theorem Compare_order_below_two63 (a b c : Height) :
  below_two63 a -> below_two63 b -> below_two63 c ->
  Compare a b = lex_compare a b
  /\ Compare a b = - Compare b a
  /\ (Compare a b <= 0 -> Compare b c <= 0 -> Compare a c <= 0)
  /\ LT a b = GT b a.
Proof.
  intros Ha Hb Hc. unfold LT, GT.
  rewrite !(Compare_lex_below_two63 a b), !(Compare_lex_below_two63 b a),
    (Compare_lex_below_two63 b c), (Compare_lex_below_two63 a c)
    by assumption.
  split; [reflexivity | split; [apply lex_compare_antisym | split]].
  - apply lex_compare_trans.
  - rewrite (lex_compare_antisym b a).
    destruct (Z.eqb_spec (lex_compare a b) (-1)) as [E | NE];
      destruct (Z.eqb_spec (- lex_compare a b) 1); lia.
Qed.

Lemma Compare_order_below_two63_witness :
  Compare (mkHeight 1 9) (mkHeight 2 3) = - Compare (mkHeight 2 3) (mkHeight 1 9)
  /\ LT (mkHeight 1 9) (mkHeight 2 3) = GT (mkHeight 2 3) (mkHeight 1 9).
Proof.
  assert (B : forall n h, 0 <= n < two63 -> 0 <= h < two63 ->
                          below_two63 (mkHeight n h)).
  { intros n h Hn Hh. split; assumption. }
  pose proof (Compare_order_below_two63
                (mkHeight 1 9) (mkHeight 2 3) (mkHeight 2 4)
                (B 1 9 ltac:(unfold two63; lia) ltac:(unfold two63; lia))
                (B 2 3 ltac:(unfold two63; lia) ltac:(unfold two63; lia))
                (B 2 4 ltac:(unfold two63; lia) ltac:(unfold two63; lia)))
    as (_ & H2 & _ & H4).
  split; [exact H2 | exact H4].
Defined.

(** X3: on heights with [uint64] fields [EQ] is exact equality of both
    fields, also where the subtraction wraps. *)
Theorem EQ_iff_equal (a b : Height) :
  wf_Height a -> wf_Height b -> (EQ a b = true <-> a = b).
Proof.
  intros [Han Hah] [Hbn Hbh]. unfold EQ.
  rewrite Z.eqb_eq. unfold Compare.
  destruct (Z.eqb_spec (EpochNumber a) (EpochNumber b)) as [E | NE];
    cbn [negb].
  - pose proof (int64_sub_zero_iff _ _ Hah Hbh) as Hz.
    set (cmp := int64_sub _ _) in *. split.
    + intros H. assert (Hc : cmp = 0) by (revert H; case_cmp; lia).
      apply Hz in Hc. destruct a, b; cbn in *. congruence.
    + intros ->. assert (Hc : cmp = 0) by (now apply Hz).
      rewrite Hc. reflexivity.
  - pose proof (int64_sub_zero_iff _ _ Han Hbn) as Hz.
    set (cmp := int64_sub _ _) in *. split.
    + intros H. assert (Hc : cmp = 0) by (revert H; case_cmp; lia).
      apply Hz in Hc. contradiction.
    + intros ->. contradiction.
Qed.

Lemma EQ_iff_equal_witness :
  EQ (mkHeight two63 1) (mkHeight 0 1) = false.
Proof.
  assert (Wa : wf_Height (mkHeight two63 1))
    by (unfold wf_Height, in_uint64, two63, two64; simpl; lia).
  assert (Wb : wf_Height (mkHeight 0 1))
    by (unfold wf_Height, in_uint64, two64; simpl; lia).
  destruct (EQ (mkHeight two63 1) (mkHeight 0 1)) eqn:E; [| reflexivity].
  apply (proj1 (EQ_iff_equal (mkHeight two63 1) (mkHeight 0 1) Wa Wb)) in E.
  discriminate E.
Defined.

(** ** Decrement *)

(** X4: a successful [Decrement] keeps the epoch number, lowers the epoch
    height by one, and the result is strictly below the original for
    [Compare], [LT] and [GT], whatever the size of the fields. *)
Theorem Decrement_strictly_lower (h h' : Height) :
  wf_Height h ->
  Decrement h = (h', true) ->
  EpochNumber h' = EpochNumber h
  /\ EpochHeight h' + 1 = EpochHeight h
  /\ Compare h' h = -1
  /\ LT h' h = true
  /\ GT h h' = true.
Proof.
  intros [Hn Hh]. unfold Decrement.
  destruct (Z.leb_spec (EpochHeight h) 1) as [Hle | Hgt]; [discriminate |].
  intros [= <-]. unfold NewHeight, uint64_sub.
  rewrite wrap_uint64_small by (unfold in_uint64 in *; lia).
  assert (C1 : Compare (mkHeight (EpochNumber h) (EpochHeight h - 1)) h = -1).
  { unfold Compare; cbn [EpochNumber EpochHeight].
    rewrite Z.eqb_refl; cbn [negb]. rewrite int64_sub_of_uint64.
    replace (EpochHeight h - 1 - EpochHeight h) with (-1) by lia.
    reflexivity. }
  assert (C2 : Compare h (mkHeight (EpochNumber h) (EpochHeight h - 1)) = 1).
  { unfold Compare; cbn [EpochNumber EpochHeight].
    rewrite Z.eqb_refl; cbn [negb]. rewrite int64_sub_of_uint64.
    replace (EpochHeight h - (EpochHeight h - 1)) with 1 by lia.
    reflexivity. }
  unfold LT, GT. rewrite C1, C2. cbn [EpochNumber EpochHeight].
  repeat split; lia.
Qed.

Lemma Decrement_strictly_lower_witness :
  LT (mkHeight 3 18446744073709551614) (mkHeight 3 18446744073709551615) = true.
Proof.
  assert (W : wf_Height (mkHeight 3 18446744073709551615))
    by (unfold wf_Height, in_uint64, two64; simpl; lia).
  exact (proj1 (proj2 (proj2 (proj2
           (Decrement_strictly_lower (mkHeight 3 18446744073709551615)
              (mkHeight 3 18446744073709551614) W eq_refl))))).
Defined.

(** X5: the success flag of [Decrement] is the validity of the height it
    returns: a success is always a valid height, and a failure always comes
    with the zero height. *)
Theorem Decrement_flag_is_validity (h : Height) :
  wf_Height h ->
  snd (Decrement h) = Valid (fst (Decrement h))
  /\ (snd (Decrement h) = false -> fst (Decrement h) = NewHeight 0 0)
  /\ (snd (Decrement h) = false -> IsZero (fst (Decrement h)) = true).
Proof.
  intros [Hn Hh]. unfold Decrement.
  destruct (Z.leb_spec (EpochHeight h) 1) as [Hle | Hgt]; cbn [fst snd].
  - repeat split; reflexivity.
  - unfold NewHeight at 1 2, uint64_sub, Valid; cbn [EpochHeight].
    rewrite wrap_uint64_small by (unfold in_uint64 in *; lia).
    destruct (Z.eqb_spec (EpochHeight h - 1) 0); [lia |].
    repeat split; discriminate.
Qed.

Lemma Decrement_flag_is_validity_witness :
  snd (Decrement (mkHeight 4 2)) = Valid (fst (Decrement (mkHeight 4 2)))
  /\ fst (Decrement (mkHeight 4 0)) = NewHeight 0 0.
Proof.
  assert (W2 : wf_Height (mkHeight 4 2))
    by (unfold wf_Height, in_uint64, two64; simpl; lia).
  assert (W0 : wf_Height (mkHeight 4 0))
    by (unfold wf_Height, in_uint64, two64; simpl; lia).
  split.
  - exact (proj1 (Decrement_flag_is_validity (mkHeight 4 2) W2)).
  - exact (proj1 (proj2 (Decrement_flag_is_validity (mkHeight 4 0) W0))
             eq_refl).
Defined.

(** ** The text form of a height *)

Section DecimalText.

Lemma string_of_uint_inj d d' :
  NilEmpty.string_of_uint d = NilEmpty.string_of_uint d' -> d = d'.
Proof.
  intros H. apply (f_equal NilEmpty.uint_of_string) in H.
  rewrite !NilEmpty.usu in H. now injection H.
Qed.

Lemma FormatUint_inj x y :
  0 <= x -> 0 <= y -> FormatUint x = FormatUint y -> x = y.
Proof.
  unfold FormatUint. intros Hx Hy H.
  apply string_of_uint_inj, DecimalN.Unsigned.to_uint_inj in H.
  now apply Z2N.inj.
Qed.

(** Decimal text holds digits only, so no underscore. *)
Lemma string_of_uint_no_underscore d :
  occurs "_" (NilEmpty.string_of_uint d) = false.
Proof. induction d; cbn; auto. Qed.

Lemma N_to_uint_nonnil n : N.to_uint n <> Nil.
Proof.
  destruct n as [| p]; cbn; [discriminate |].
  apply DecimalPos.Unsigned.to_uint_nonnil.
Qed.

(** Decimal text is never empty. *)
Lemma FormatUint_nonempty u :
  exists c rest, FormatUint u = String c rest.
Proof.
  unfold FormatUint. pose proof (N_to_uint_nonnil (Z.to_N u)) as Hn.
  destruct (N.to_uint (Z.to_N u)); [contradiction | ..]; cbn; eauto.
Qed.

(** Two texts that carry the same separator after a separator-free prefix
    split the same way. *)
Lemma append_separator_inj c s1 : forall s2 t1 t2,
  occurs c s1 = false -> occurs c s2 = false ->
  (s1 ++ String c t1)%string = (s2 ++ String c t2)%string ->
  s1 = s2 /\ t1 = t2.
Proof.
  induction s1 as [| a s1 IH]; intros [| b s2] t1 t2 H1 H2 E; cbn in *.
  - injection E as ->. auto.
  - injection E as <- _. rewrite Ascii.eqb_refl in H2. discriminate.
  - injection E as -> _. rewrite Ascii.eqb_refl in H1. discriminate.
  - injection E as -> E.
    apply orb_false_elim in H1 as [_ H1]. apply orb_false_elim in H2 as [_ H2].
    destruct (IH s2 t1 t2 H1 H2 E) as [-> ->]. auto.
Qed.

(** [ParseUint] reads back what [FormatUint] prints. *)
Lemma ParseUint_FormatUint u :
  in_uint64 u -> ParseUint (FormatUint u) = Some u.
Proof.
  intros [Hlo Hhi]. unfold ParseUint.
  destruct (FormatUint_nonempty u) as (c & rest & E). rewrite E, <- E.
  unfold FormatUint. rewrite NilEmpty.usu, DecimalN.Unsigned.of_to.
  rewrite Z2N.id by assumption.
  destruct (Z.ltb_spec u two64); [reflexivity | lia].
Qed.

End DecimalText.

(** X6: the text form determines the height: two heights with [uint64]
    fields that print the same ["epoch-E_height-H"] text are equal. *)
Theorem Height_String_injective (a b : Height) :
  wf_Height a -> wf_Height b ->
  Height_String a = Height_String b -> a = b.
Proof.
  intros [[Han _] [Hah _]] [[Hbn _] [Hbh _]]. unfold Height_String. intros E.
  cbn [append] in E. injection E as E.
  apply append_separator_inj in E;
    [| apply string_of_uint_no_underscore ..].
  destruct E as [En Eh]. injection Eh as Eh.
  apply FormatUint_inj in En; [| assumption ..].
  apply FormatUint_inj in Eh; [| assumption ..].
  destruct a, b; cbn in *; congruence.
Qed.

Lemma Height_String_injective_witness :
  Height_String (mkHeight 1 23) <> Height_String (mkHeight 12 3).
Proof.
  assert (Wa : wf_Height (mkHeight 1 23))
    by (unfold wf_Height, in_uint64, two64; simpl; lia).
  assert (Wb : wf_Height (mkHeight 12 3))
    by (unfold wf_Height, in_uint64, two64; simpl; lia).
  intros E.
  pose proof (Height_String_injective (mkHeight 1 23) (mkHeight 12 3) Wa Wb E)
    as H.
  discriminate H.
Defined.

(** ** The two directions of the ClientType codec *)

(** The types [String] has a case for. *)
Lemma ClientType_String_nonempty (ct : ClientType) :
  ClientType_String ct <> EmptyString -> ct = Tendermint \/ ct = Localhost.
Proof.
  unfold ClientType_String.
  destruct (Z.eqb_spec ct Tendermint); [auto |].
  destruct (Z.eqb_spec ct Localhost); [auto |].
  intros H. now contradiction H.
Qed.

(** The strings [ClientTypeFromString] has a case for. *)
Lemma ClientTypeFromString_nonzero (s : string) :
  ClientTypeFromString s <> 0 ->
  (s = ClientTypeTendermint /\ ClientTypeFromString s = Tendermint)
  \/ (s = ClientTypeLocalHost /\ ClientTypeFromString s = Localhost).
Proof.
  unfold ClientTypeFromString.
  destruct (String.eqb_spec s ClientTypeTendermint); [auto |].
  destruct (String.eqb_spec s ClientTypeLocalHost); [auto |].
  intros H. now contradiction H.
Qed.

(** X7: whenever [String] yields a non-empty name for a client type,
    [ClientTypeFromString] maps that name back to the same type. *)
Theorem String_then_FromString (ct : ClientType) :
  ClientType_String ct <> EmptyString ->
  ClientTypeFromString (ClientType_String ct) = ct.
Proof.
  intros H. destruct (ClientType_String_nonempty ct H) as [-> | ->];
    reflexivity.
Qed.

Lemma String_then_FromString_witness :
  ClientTypeFromString (ClientType_String Localhost) = Localhost.
Proof.
  apply (String_then_FromString Localhost). vm_compute. discriminate.
Defined.

(** X8: whenever [ClientTypeFromString] recognises a string (its result is
    not 0), [String] of the result is that very string. *)
Theorem FromString_then_String (s : string) :
  ClientTypeFromString s <> 0 ->
  ClientType_String (ClientTypeFromString s) = s.
Proof.
  intros H. destruct (ClientTypeFromString_nonzero s H) as [[-> _] | [-> _]];
    reflexivity.
Qed.

Lemma FromString_then_String_witness :
  ClientType_String (ClientTypeFromString "tendermint") = "tendermint".
Proof.
  apply (FromString_then_String "tendermint"). vm_compute. discriminate.
Defined.

(** X9: JSON round trip.  For a client type with a non-empty name, if
    [MarshalJSON] produces [data] and the JSON decoder reads that name back
    from [data], then [UnmarshalJSON] on [data] stores the original type and
    returns [nil], whatever the receiver held before. *)
Theorem MarshalJSON_then_UnmarshalJSON {J : JsonString}
    (ct receiver : ClientType) (data : list byte) :
  ClientType_String ct <> EmptyString ->
  MarshalJSON ct = (data, None) ->
  decodes_to data (ClientType_String ct) ->
  UnmarshalJSON receiver data = (ct, None).
Proof.
  intros Hne _ Hd. rewrite (UnmarshalJSON_decoded receiver data _ Hd).
  destruct (ClientType_String_nonempty ct Hne) as [-> | ->]; reflexivity.
Qed.

Lemma MarshalJSON_then_UnmarshalJSON_witness :
  @UnmarshalJSON PlainJson.codec SoloMachine
    (fst (@MarshalJSON PlainJson.codec Tendermint)) = (Tendermint, None).
Proof.
  apply (@MarshalJSON_then_UnmarshalJSON PlainJson.codec Tendermint SoloMachine
           (fst (@MarshalJSON PlainJson.codec Tendermint))).
  - vm_compute. discriminate.
  - reflexivity.
  - reflexivity.
Defined.

(** X10: a [nil] return of [UnmarshalJSON] means the receiver now holds
    [Tendermint] or [Localhost] and the JSON decoded to exactly the name
    [String] gives that type; no other value is ever stored. *)
Theorem UnmarshalJSON_stores_named_type {J : JsonString}
    (receiver ct : ClientType) (data : list byte) :
  UnmarshalJSON receiver data = (ct, None) ->
  (ct = Tendermint \/ ct = Localhost)
  /\ decodes_to data (ClientType_String ct).
Proof.
  unfold UnmarshalJSON, decodes_to.
  destruct (json_Unmarshal data EmptyString) as [s [e |]]; [discriminate |].
  destruct (Z.eqb_spec (ClientTypeFromString s) 0) as [E | NE];
    [discriminate |].
  intros [= <-].
  destruct (ClientTypeFromString_nonzero s NE) as [[-> ->] | [-> ->]];
    split; auto.
Qed.

Lemma UnmarshalJSON_stores_named_type_witness :
  decodes_to (J := PlainJson.codec) (PlainJson.literal "localhost")
    (ClientType_String Localhost).
Proof.
  exact (proj2 (@UnmarshalJSON_stores_named_type PlainJson.codec
                  Tendermint Localhost (PlainJson.literal "localhost")
                  eq_refl)).
Defined.



(** ** The consensus-state query command *)

Section CommandFacts.

Import Cli.

Context {Ctx Res : Type}.
Variable env : @Env Ctx Res.

Lemma query_and_print_returns ctx id h prove latest :
  exists err, query_and_print env ctx id h prove latest = Return err.
Proof.
  unfold query_and_print.
  destruct (QueryConsensusState env ctx id h prove latest) as [res [e |]];
    eauto.
Qed.

Lemma with_height_returns ctx id latest height :
  exists err, with_height env ctx id latest height = Return err.
Proof.
  unfold with_height. destruct (GetInt env flagEpoch) as [epoch [e |]];
    [eauto | apply query_and_print_returns].
Qed.

(** With the epoch flag read, the height queried is built from the flag
    converted to [uint64] and the settled height. *)
Lemma with_height_epoch ctx id latest height epoch :
  GetInt env flagEpoch = (epoch, None) ->
  with_height env ctx id latest height =
    query_and_print env ctx id (mkHeight (wrap_uint64 epoch) height)
      (fst (GetBool env (FlagProve env))) latest.
Proof. unfold with_height. now intros ->. Qed.

(** [RunE] once the query flags were read and the client id is there. *)
Lemma RunE_two_args ctx id arg1 :
  ReadQueryCommandFlags env (GetClientContextFromCmd env) = (ctx, None) ->
  RunE env [id; arg1] =
    if fst (GetBool env flagLatestHeight)
    then with_height env ctx id true 0
    else match ParseUint arg1 with
         | Some height => with_height env ctx id false height
         | None => Return (Some (ErrorString
                     ("expected integer height, got: " ++ arg1)%string))
         end.
Proof.
  intros Hf. unfold RunE. rewrite Hf. cbn [nth_error length Nat.eqb negb].
  destruct (fst (GetBool env flagLatestHeight)); reflexivity.
Qed.

End CommandFacts.

(** X12: run through cobra, which admits one or two positional arguments,
    the command never indexes [args] out of range: every run ends by
    returning, for any argument list and any surroundings. *)
Theorem Execute_never_panics {Ctx Res : Type}
    (env : @Cli.Env Ctx Res) (args : list string) :
  exists err, Cli.Execute env args = Cli.Return err.
Proof.
  unfold Cli.Execute, Cli.RangeArgs.
  destruct args as [| id [| arg1 [| arg2 rest]]];
    cbn [length Nat.ltb Nat.leb orb]; eauto.
  - unfold Cli.RunE.
    destruct (Cli.ReadQueryCommandFlags env _) as [ctx [e |]]; [eauto |].
    cbn [nth_error length Nat.eqb negb].
    destruct (fst (Cli.GetBool env Cli.flagLatestHeight)); cbn [negb];
      [apply with_height_returns | eauto].
  - unfold Cli.RunE.
    destruct (Cli.ReadQueryCommandFlags env _) as [ctx [e |]]; [eauto |].
    cbn [nth_error length Nat.eqb negb].
    destruct (fst (Cli.GetBool env Cli.flagLatestHeight)); cbn [negb];
      [apply with_height_returns |].
    destruct (ParseUint arg1); [apply with_height_returns | eauto].
Qed.

(** X13: without [--latest-height] the height argument is required and must
    be a decimal [uint64]: with the client id alone the command returns the
    missing-argument error, and with a second argument [ParseUint] rejects it
    returns the expected-integer error quoting that argument; in both cases
    the epoch flag is not consulted and no query is made. *)
Theorem height_argument_checked {Ctx Res : Type}
    (env : @Cli.Env Ctx Res) (ctx : Ctx) (id : string) :
  Cli.ReadQueryCommandFlags env (Cli.GetClientContextFromCmd env)
    = (ctx, None) ->
  fst (Cli.GetBool env Cli.flagLatestHeight) = false ->
  Cli.RunE env [id]
    = Cli.Return (Some (Cli.ErrorString
        "must include a second 'height' argument when '--latest-height' flag is not provided"))
  /\ (forall arg1,
         ParseUint arg1 = None ->
         Cli.RunE env [id; arg1]
         = Cli.Return (Some (Cli.ErrorString
             ("expected integer height, got: " ++ arg1)%string))).
Proof.
  intros Hf Hl. split.
  - unfold Cli.RunE. rewrite Hf. cbn [nth_error]. rewrite Hl. reflexivity.
  - intros arg1 Hp. rewrite (RunE_two_args env ctx id arg1 Hf), Hl, Hp.
    reflexivity.
Qed.

Lemma height_argument_checked_witness :
  Cli.RunE (Cli.Sample.env false 0) ["07-tendermint-0"; "-5"]
  = Cli.Return (Some (Cli.ErrorString "expected integer height, got: -5")).
Proof.
  exact (proj2 (height_argument_checked (Cli.Sample.env false 0) EmptyString
                  "07-tendermint-0" eq_refl eq_refl) "-5" eq_refl).
Defined.

(** X14: with [--latest-height] the height argument is ignored, whatever
    its text: the run with a second argument is the run without it, and
    once the epoch flag is read the query is made at epoch height 0 with
    the latest-height request set. *)
Theorem latest_height_ignores_argument {Ctx Res : Type}
    (env : @Cli.Env Ctx Res) (ctx : Ctx) (id arg1 : string) (epoch : Z) :
  Cli.ReadQueryCommandFlags env (Cli.GetClientContextFromCmd env)
    = (ctx, None) ->
  fst (Cli.GetBool env Cli.flagLatestHeight) = true ->
  Cli.GetInt env Cli.flagEpoch = (epoch, None) ->
  Cli.RunE env [id; arg1] = Cli.RunE env [id]
  /\ Cli.RunE env [id]
     = Cli.query_and_print env ctx id (mkHeight (wrap_uint64 epoch) 0)
         (fst (Cli.GetBool env (Cli.FlagProve env))) true.
Proof.
  intros Hf Hl He.
  assert (H1 : Cli.RunE env [id] = Cli.with_height env ctx id true 0).
  { unfold Cli.RunE. rewrite Hf. cbn [nth_error]. rewrite Hl. reflexivity. }
  split.
  - rewrite (RunE_two_args env ctx id arg1 Hf), Hl. now rewrite H1.
  - rewrite H1. now apply with_height_epoch.
Qed.

Lemma latest_height_ignores_argument_witness :
  Cli.RunE (Cli.Sample.env true 2) ["07-tendermint-0"; "not a number"]
  = Cli.RunE (Cli.Sample.env true 2) ["07-tendermint-0"].
Proof.
  exact (proj1 (latest_height_ignores_argument (Cli.Sample.env true 2)
                  EmptyString "07-tendermint-0" "not a number" 2
                  eq_refl eq_refl eq_refl)).
Defined.



(** X16: a negative epoch flag is not rejected: converted to [uint64] it
    wraps, and the query is made at epoch number [epoch + 2^64], which is at
    least [2^63]. *)
Theorem negative_epoch_wraps {Ctx Res : Type}
    (env : @Cli.Env Ctx Res) (ctx : Ctx) (id : string) (epoch height : Z) :
  in_int64 epoch -> epoch < 0 -> in_uint64 height ->
  Cli.ReadQueryCommandFlags env (Cli.GetClientContextFromCmd env)
    = (ctx, None) ->
  fst (Cli.GetBool env Cli.flagLatestHeight) = false ->
  Cli.GetInt env Cli.flagEpoch = (epoch, None) ->
  Cli.RunE env [id; FormatUint height]
  = Cli.query_and_print env ctx id (mkHeight (epoch + two64) height)
      (fst (Cli.GetBool env (Cli.FlagProve env))) false
  /\ two63 <= epoch + two64 < two64.
Proof.
  intros He Hneg Hh Hf Hl Hg.
  rewrite (RunE_two_args env ctx id _ Hf), Hl.
  rewrite (ParseUint_FormatUint _ Hh).
  rewrite (with_height_epoch env ctx id false _ _ Hg).
  assert (Hw : wrap_uint64 epoch = epoch + two64).
  { unfold wrap_uint64, in_int64, two63, two64 in *.
    replace epoch with ((epoch + 18446744073709551616)
                        + (-1) * 18446744073709551616) at 1 by lia.
    rewrite Z.mod_add by lia. apply Z.mod_small. lia. }
  rewrite Hw. split; [reflexivity |].
  unfold in_int64, two63, two64 in *. lia.
Qed.

Lemma negative_epoch_wraps_witness :
  Cli.RunE (Cli.Sample.env false (-1)) ["07-tendermint-0"; "5"]
  = Cli.query_and_print (Cli.Sample.env false (-1)) EmptyString
      "07-tendermint-0" (mkHeight 18446744073709551615 5) true false.
Proof.
  refine (proj1 (negative_epoch_wraps (Cli.Sample.env false (-1)) EmptyString
                   "07-tendermint-0" (-1) 5 _ _ _ eq_refl eq_refl eq_refl)).
  - unfold in_int64, two63. lia.
  - lia.
  - unfold in_uint64, two64. lia.
Defined.
